(** * StochasticDepth

    A shallow embedding of [tensorflow_addons/layers/stochastic_depth.py]:
    the Keras layer that merges a residual branch back into its shortcut,
    gated by a Bernoulli draw at train time and rescaled by the survival
    probability at test time.

    The layer lives inside a host framework (TensorFlow/Keras and typeguard).
    What the layer itself does is translated function by function; what the
    host does (tensor arithmetic, the random generator, the base [Layer]
    class) is an interface, [Host], whose laws are stated separately and
    assumed only where a statement names them. A reference host over exact
    rationals shows the laws can be met and runs the examples; a host over
    IEEE 754 numbers with dtypes shows where floating point departs from
    exact arithmetic. *)

From Stdlib Require Import ZArith QArith Qcanon PrimFloat FloatOps SpecFloat.
From stdpp Require Import base gmap strings list.

Local Open Scope string_scope.
#[local] Set Warnings "-inexact-float".

(** ** Python values and exceptions *)

(** The Python values that reach the constructor and the exported
    configuration.  A Python [float] is an IEEE binary64 number. *)
Inductive pyval : Type :=
| PNone
| PBool (b : bool)
| PInt (z : Z)
| PFloat (f : float)
| PStr (s : string).

Inductive exn : Type :=
| ValueError (msg : string)
| TypeError (msg : string)
| NameError (name : string)
| IndexError (msg : string)
| HostError (msg : string).

Inductive result (A : Type) : Type :=
| Ok (a : A)
| Raise (e : exn).
Arguments Ok {A} a.
Arguments Raise {A} e.

#[global] Instance result_ret : MRet result := @Ok.
#[global] Instance result_bind : MBind result := λ A B f m,
  match m with
  | Ok a => f a
  | Raise e => Raise e
  end.

(** The shapes of the values a layer method is handed: one object, a Python
    list, or a Python tuple. *)
Inductive arg (A : Type) : Type :=
| Single (a : A)
| PyList (l : list A)
| PyTuple (l : list A).
Arguments Single {A} a.
Arguments PyList {A} l.
Arguments PyTuple {A} l.

Definition isinstance_list {A} (x : arg A) : bool :=
  match x with
  | PyList _ => true
  | _ => false
  end.

(** ** The host framework *)

Class Host : Type := {
  Tensor : Type;
  shape : Tensor → list nat;
  (** [a + b], [a * b] on tensors, and [v * a] with a Python number on the
      left; each may raise the host's own error. *)
  tensor_add : Tensor → Tensor → result Tensor;
  tensor_mul : Tensor → Tensor → result Tensor;
  tensor_rmul : pyval → Tensor → result Tensor;
  (** The scalar tensors 0 and 1 the sampler hands out. *)
  scalar_zero : Tensor;
  scalar_one : Tensor;
  (** Every entry is a finite number (no infinity, no NaN). *)
  all_finite : Tensor → bool;
  (** Same shape and, entry by entry, the same number: equal entries, or
      two zeros whatever their signs. *)
  same_numbers : Tensor → Tensor → Prop;
  (** The global random generator and [tf.keras.backend.random_binomial]. *)
  Rng : Type;
  random_binomial : list nat → pyval → Rng → result Tensor * Rng;
  (** The base class [tf.keras.layers.Layer]. *)
  BaseLayer : Type;
  Layer_init : gmap string pyval → result BaseLayer;
  Layer_get_config : BaseLayer → gmap string pyval;
}.

Section Layer.
Context `{H : Host}.

(** What a call can observe and change outside its arguments: the random
    generator, and the learning phase the framework is in. *)
Record World : Type := {
  rng : Rng;
  learning_phase : bool;
}.

(** Code that may raise and may change the world.  A raise keeps the
    changes made before it. *)
Definition M (A : Type) : Type := World → result A * World.

#[global] Instance M_ret : MRet M := λ A a w, (Ok a, w).
#[global] Instance M_bind : MBind M := λ A B f m w,
  match m w with
  | (Ok a, w') => f a w'
  | (Raise e, w') => (Raise e, w')
  end.

Definition lift {A} (r : result A) : M A := λ w, (r, w).

(** Raise [e] unless [c] holds.  The guards of the source are written
    [assert c: raise E]; they are read as the check they spell: evaluate
    [c], raise [E] if it fails. *)
Definition ensure (c : bool) (e : exn) : result unit :=
  if c then Ok () else Raise e.

(** [len(x)] *)
Definition len {A} (x : arg A) : result nat :=
  match x with
  | PyList l | PyTuple l => Ok (length l)
  | Single _ => Raise (TypeError "object has no len()")
  end.

(** [a, b = x] *)
Definition unpack2 {A} (x : arg A) : result (A * A) :=
  match x with
  | PyList [a; b] | PyTuple [a; b] => Ok (a, b)
  | _ => Raise (ValueError "cannot unpack")
  end.

(** [tf.keras.backend.random_binomial(shape, p=p)] on the global generator. *)
Definition draw (s : list nat) (p : pyval) : M Tensor := λ w,
  let '(b, g) := random_binomial s p (rng w) in
  (b, {| rng := g; learning_phase := learning_phase w |}).

(** [tf.keras.backend.in_train_phase(x, alt, training=training)] with
    callables: an absent flag falls back on the learning phase; then one of
    the two callables, and only that one, is called. *)
Definition in_train_phase {A} (x alt : unit → result A)
    (training : option bool) : M A := λ w,
  let training := default (learning_phase w) training in
  (if training then x () else alt (), w).

(** The mode a call runs in. *)
Definition training_mode (training : option bool) (w : World) : bool :=
  default (learning_phase w) training.

(** ** The layer *)

Record StochasticDepth : Type := {
  super : BaseLayer;
  survival_probability : pyval;
}.

(** typeguard's check of a value against the annotation [float].  By the
    numeric tower of PEP 484, which typeguard follows, an [int] is accepted
    where a [float] is expected ([bool] is a subclass of [int]). *)
Definition typechecked_float (v : pyval) : bool :=
  match v with
  | PFloat _ | PInt _ | PBool _ => true
  | _ => false
  end.

(** [StochasticDepth(survival_probability, **kwargs)]: the argument is
    absent when the caller leaves it to the default. *)
Definition __init__ (survival_probability : option pyval)
    (kwargs : gmap string pyval) : result StochasticDepth :=
  let survival_probability := default (PFloat 0.5) survival_probability in
  ensure (typechecked_float survival_probability)
         (TypeError "survival_probability");;
  super ← Layer_init kwargs;
  Ok {| super := super; survival_probability := survival_probability |}.

Definition call (self : StochasticDepth) (x : arg Tensor)
    (training : option bool) : M Tensor :=
  lift (ensure (isinstance_list x) (ValueError "Input must be a list"));;
  n ← lift (len x);
  lift (ensure (n =? 2)%nat
          (ValueError "Input must have exactly two entries"));;
  '(shortcut, residual) ← lift (unpack2 x);
  b_l ← draw [] (survival_probability self);
  let _call_train (_ : unit) :=
    t ← tensor_mul b_l residual; tensor_add shortcut t in
  let _call_test (_ : unit) :=
    t ← tensor_rmul (survival_probability self) residual;
    tensor_add shortcut t in
  in_train_phase _call_train _call_test training.

(** The world after one draw of the gate of [self], and only that. *)
Definition drawn (self : StochasticDepth) (w : World) : World :=
  {| rng := (random_binomial [] (survival_probability self) (rng w)).2;
     learning_phase := learning_phase w |}.

(** Names a method body can see.  [compute_output_shape] binds [self] and
    [input_shape]; the module binds [tf], [typechecked] and the class. *)
Inductive obj : Type :=
| OSelf (l : StochasticDepth)
| OShapes (s : arg (list nat))
| OGlobal (name : string).

Definition module_globals : gmap string obj :=
  <["tf" := OGlobal "tensorflow"]>
    (<["typechecked" := OGlobal "typeguard.typechecked"]>
       (<["StochasticDepth" := OGlobal "StochasticDepth"]> ∅)).

Definition load_name (name : string) (scope : gmap string obj) : result obj :=
  match scope !! name with
  | Some o => Ok o
  | None => Raise (NameError name)
  end.

Definition obj_isinstance_list (o : obj) : bool :=
  match o with
  | OShapes s => isinstance_list s
  | _ => false
  end.

Definition obj_len (o : obj) : result nat :=
  match o with
  | OShapes (Single s) => Ok (length s)
  | OShapes s => len s
  | _ => Raise (TypeError "object has no len()")
  end.

(** What [input_shape[0]] can be: a shape out of a list of shapes, or a
    dimension out of a single shape. *)
Inductive item : Type :=
| Shape (s : list nat)
| Dim (n : nat).

Definition getitem0 (s : arg (list nat)) : result item :=
  match s with
  | PyList (s0 :: _) | PyTuple (s0 :: _) => Ok (Shape s0)
  | Single (d :: _) => Ok (Dim d)
  | _ => Raise (IndexError "index out of range")
  end.

Definition compute_output_shape (self : StochasticDepth)
    (input_shape : arg (list nat)) : result item :=
  let scope :=
    <["self" := OSelf self]> (<["input_shape" := OShapes input_shape]>
                                module_globals) in
  x ← load_name "x" scope;
  ensure (obj_isinstance_list x) (ValueError "Input must be a list");;
  x ← load_name "x" scope;
  n ← obj_len x;
  ensure (n =? 2)%nat (ValueError "Input must have exactly two entries");;
  getitem0 input_shape.

(** [{**base_config, **config}]: the keys of [config] win. *)
Definition get_config (self : StochasticDepth) : gmap string pyval :=
  let base_config := Layer_get_config (super self) in
  let config : gmap string pyval :=
    {[ "survival_probability" := survival_probability self ]} in
  config ∪ base_config.

End Layer.

(** Modelled from the spec: reconstruction of a layer from an exported
    configuration.  The host framework's loader does it, outside this
    module, by calling the class with the mapping unpacked as keyword
    arguments. *)
Definition from_config `{H : Host} (config : gmap string pyval)
    : result StochasticDepth :=
  __init__ (config !! "survival_probability")
           (delete "survival_probability" config).

(** ** Laws of the host *)

(** The sampler draws a Bernoulli variable: a scalar tensor that is 0 or 1,
    and always 1 when [p] is 1. *)
Class Sampler (H : Host) : Prop := {
  draw_bernoulli : ∀ (f : float) (g : Rng), ∃ b,
    (random_binomial [] (PFloat f) g).1 = Ok b ∧
    (b = scalar_zero ∨ b = scalar_one);
  draw_always : ∀ g, (random_binomial [] (PFloat 1) g).1 = Ok scalar_one;
}.

(** Sums of equal shapes and products with a Python float are defined and
    keep the shape; a product with a scalar tensor, where the host forms
    it, has the shape of the other factor. *)
Class Shaped (H : Host) : Prop := {
  shape_scalar_zero : shape scalar_zero = [];
  shape_scalar_one : shape scalar_one = [];
  add_shaped : ∀ a b, shape a = shape b →
    ∃ c, tensor_add a b = Ok c ∧ shape c = shape a;
  mul_shaped : ∀ b a c, shape b = [] →
    tensor_mul b a = Ok c → shape c = shape a;
  rmul_shaped : ∀ (f : float) a,
    ∃ c, tensor_rmul (PFloat f) a = Ok c ∧ shape c = shape a;
}.


(** 0 absorbs finite entries: where the host forms the product of 0 with a
    tensor of finite entries and adds it to a tensor of the same shape, the
    sum holds the same numbers as that tensor.  Nothing is said of a tensor
    with an infinite or NaN entry, whose product with 0 is NaN. *)
Class Absorbing (H : Host) : Prop := {
  mul_zero : ∀ s a z out, all_finite a = true → shape s = shape a →
    tensor_mul scalar_zero a = Ok z → tensor_add s z = Ok out →
    same_numbers s out;
  rmul_zero : ∀ s a z out, all_finite a = true → shape s = shape a →
    tensor_rmul (PFloat 0) a = Ok z → tensor_add s z = Ok out →
    same_numbers s out;
}.

(** ** A reference host: tensors of exact rationals *)

Module Reference.

Definition product (dims : list nat) : nat := foldr Nat.mul 1%nat dims.

Record tensor : Type := {
  dims : list nat;
  elts : list Qc;
  sized : bool_decide (length elts = product dims);
}.

(** The rational a binary64 number stands for; 0 where it stands for none. *)
Definition SF2Q (x : spec_float) : Q :=
  match x with
  | S754_finite s m e =>
      let v := match e with
               | Z0 => inject_Z (Zpos m)
               | Zpos k => inject_Z (Zpos m * 2 ^ Zpos k)
               | Zneg k => Qmake (Zpos m) (2 ^ k)
               end in
      if s then Qopp v else v
  | _ => 0%Q
  end.

(** The largest binary64 number, an integer. *)
Definition max_float : Z := (2 ^ 53 - 1) * 2 ^ 971.

(** The number a Python value converts to: a float, a bool (1 or 0), an
    int within the range of a float. *)
Definition number (v : pyval) : option Qc :=
  match v with
  | PFloat f => Some (Q2Qc (SF2Q (Prim2SF f)))
  | PBool b => Some (if b then 1%Qc else 0%Qc)
  | PInt z => if (Z.abs z <=? max_float)%Z then Some (Q2Qc (inject_Z z))
              else None
  | _ => None
  end.

Definition mk (d : list nat) (l : list Qc) : result tensor :=
  match decide (length l = product d) with
  | left E => Ok {| dims := d; elts := l; sized := bool_decide_pack _ E |}
  | right _ => Raise (HostError "size does not match shape")
  end.

Definition scalar (q : Qc) : tensor :=
  {| dims := []; elts := [q]; sized := I |}.

(** The tensor of a shape and its entries in row-major order. *)
Definition tensor_of (d : list nat) (l : list Qc) : tensor :=
  match mk d l with
  | Ok t => t
  | Raise _ => scalar 0%Qc
  end.

Definition scale (q : Qc) (a : tensor) : result tensor :=
  mk (dims a) (Qcmult q <$> elts a).

(** Elementwise on equal shapes; a scalar on the left broadcasts. *)
Definition pointwise (f : Qc → Qc → Qc) (a b : tensor) : result tensor :=
  if decide (dims a = dims b) then mk (dims a) (zip_with f (elts a) (elts b))
  else match dims a, elts a with
       | [], [q] => mk (dims b) (f q <$> elts b)
       | _, _ => Raise (HostError "Incompatible shapes")
       end.

Definition rmul (v : pyval) (a : tensor) : result tensor :=
  match number v with
  | Some q => scale q a
  | None => Raise (HostError "not a number")
  end.

(** A linear congruential generator; [uniform] lies in [0, 1). *)
Definition modulus : Z := 2147483648.
Definition next (g : Z) : Z := (1103515245 * g + 12345) mod modulus.
Definition uniform (g : Z) : Qc := Q2Qc (Qmake (g mod modulus) 2147483648).

(** The gate is 1 where [uniform <= p], as Keras has it. *)
Definition bernoulli (p : Qc) (g : Z) : Qc :=
  match (uniform g ?= p)%Qc with
  | Gt => 0%Qc
  | _ => 1%Qc
  end.

Fixpoint draws (n : nat) (p : Qc) (g : Z) : list Qc * Z :=
  match n with
  | O => ([], g)
  | S n' =>
      let g1 := next g in
      let '(bs, g2) := draws n' p g1 in
      (bernoulli p g1 :: bs, g2)
  end.

Definition binomial (s : list nat) (p : pyval) (g : Z) : result tensor * Z :=
  match number p with
  | Some q => let '(bs, g') := draws (product s) q g in (mk s bs, g')
  | None => (Raise (HostError "not a number"), g)
  end.

(** The base layer keeps the keyword arguments it understands. *)
Definition allowed_kwargs : list string := ["name"; "trainable"; "dtype"].

Definition base_init (kwargs : gmap string pyval)
    : result (gmap string pyval) :=
  if forallb (λ k, bool_decide (k ∈ allowed_kwargs)) (map_to_list kwargs).*1
  then Ok kwargs
  else Raise (TypeError "Keyword argument not understood").

#[export] Instance host : Host := {|
  Tensor := tensor;
  shape := dims;
  tensor_add := pointwise Qcplus;
  tensor_mul := pointwise Qcmult;
  tensor_rmul := rmul;
  scalar_zero := scalar 0%Qc;
  scalar_one := scalar 1%Qc;
  all_finite := λ _, true;
  same_numbers := eq;
  Rng := Z;
  random_binomial := binomial;
  BaseLayer := gmap string pyval;
  Layer_init := base_init;
  Layer_get_config := λ b, b;
|}.

(** A layer, a world and a pair of tensors to run the layer on. *)
Definition layer (p : pyval) : StochasticDepth :=
  {| super := (∅ : gmap string pyval); survival_probability := p |}.

Definition world (training : bool) : World :=
  {| rng := 42%Z; learning_phase := training |}.

Definition ones331 : tensor := tensor_of [3; 3; 1]%nat (replicate 9 1%Qc).
Definition twos331 : tensor := tensor_of [3; 3; 1]%nat (replicate 9 (Q2Qc 2)).

End Reference.

(** ** A floating-point host: IEEE 754 entries with a dtype *)

Module IEEE.

Inductive dtype : Type := float32 | float64.

#[export] Instance dtype_eq_dec : EqDecision dtype.
Proof. solve_decision. Defined.

Definition prec (d : dtype) : Z :=
  match d with float32 => 24 | float64 => 53 end.
Definition emax (d : dtype) : Z :=
  match d with float32 => 128 | float64 => 1024 end.

(** [tf.keras.backend.floatx()], the dtype the sampler draws in. *)
Definition floatx : dtype := float32.

Record tensor : Type := {
  dtype_of : dtype;
  dims : list nat;
  elts : list spec_float;
  sized : bool_decide (length elts = Reference.product dims);
}.

Definition mk (d : dtype) (s : list nat) (l : list spec_float)
    : result tensor :=
  match decide (length l = Reference.product s) with
  | left E => Ok {| dtype_of := d; dims := s; elts := l;
                    sized := bool_decide_pack _ E |}
  | right _ => Raise (HostError "size does not match shape")
  end.

Definition scalar (d : dtype) (x : spec_float) : tensor :=
  {| dtype_of := d; dims := []; elts := [x]; sized := I |}.

(** The tensor of a dtype, a shape and its entries in row-major order. *)
Definition tensor_of (d : dtype) (s : list nat) (l : list spec_float)
    : tensor :=
  match mk d s l with
  | Ok t => t
  | Raise _ => scalar d (S754_zero false)
  end.

Definition zero : spec_float := S754_zero false.
Definition one (d : dtype) : spec_float := SFone (prec d) (emax d).

(** Rounding of a binary64 number to a dtype. *)
Definition round (d : dtype) (x : spec_float) : spec_float :=
  match x with
  | S754_finite s m e => binary_round (prec d) (emax d) s m e
  | _ => x
  end.

(** The entry a Python number converts to: an int too large for a float
    is refused. *)
Definition cast (d : dtype) (v : pyval) : option spec_float :=
  match v with
  | PFloat f => Some (round d (Prim2SF f))
  | PBool b => Some (if b then one d else zero)
  | PInt z => if (Z.abs z <=? Reference.max_float)%Z
              then Some (binary_normalize (prec d) (emax d) z 0 false)
              else None
  | _ => None
  end.

(** Elementwise on equal shapes; a scalar on either side broadcasts
    (broadcasting between other shapes is left out); the two dtypes must
    agree, the host converts none. *)
Definition pointwise (f : spec_float → spec_float → spec_float)
    (a b : tensor) : result tensor :=
  if decide (dtype_of a = dtype_of b) then
    if decide (dims a = dims b)
    then mk (dtype_of a) (dims a) (zip_with f (elts a) (elts b))
    else match dims a, elts a, dims b, elts b with
         | [], [x], _, _ => mk (dtype_of a) (dims b) (f x <$> elts b)
         | _, _, [], [y] => mk (dtype_of a) (dims a) ((λ x, f x y) <$> elts a)
         | _, _, _, _ => Raise (HostError "Incompatible shapes")
         end
  else Raise (HostError "InvalidArgumentError: dtypes differ").

Definition add (a b : tensor) : result tensor :=
  pointwise (SFadd (prec (dtype_of a)) (emax (dtype_of a))) a b.

Definition mul (a b : tensor) : result tensor :=
  pointwise (SFmul (prec (dtype_of a)) (emax (dtype_of a))) a b.

(** A Python number on the left is converted to the dtype of the tensor. *)
Definition rmul (v : pyval) (a : tensor) : result tensor :=
  match cast (dtype_of a) v with
  | Some c => mk (dtype_of a) (dims a)
                 (SFmul (prec (dtype_of a)) (emax (dtype_of a)) c <$> elts a)
  | None => Raise (HostError "not a number")
  end.

(** The generator of the reference host; [uniform] is a [floatx] number of
    23 random bits in [0, 1). *)
Definition uniform (g : Z) : spec_float :=
  binary_normalize (prec floatx) (emax floatx) (g mod Reference.modulus / 256)
                   (-23) false.

(** The gate is 1 where [uniform <= p], as Keras has it. *)
Definition bernoulli (p : spec_float) (g : Z) : spec_float :=
  if SFleb (uniform g) p then one floatx else zero.

Fixpoint draws (n : nat) (p : spec_float) (g : Z) : list spec_float * Z :=
  match n with
  | O => ([], g)
  | S n' =>
      let g1 := Reference.next g in
      let '(bs, g2) := draws n' p g1 in
      (bernoulli p g1 :: bs, g2)
  end.

Definition binomial (s : list nat) (p : pyval) (g : Z) : result tensor * Z :=
  match cast floatx p with
  | Some q =>
      let '(bs, g') := draws (Reference.product s) q g in (mk floatx s bs, g')
  | None => (Raise (HostError "not a number"), g)
  end.

Definition is_finite (x : spec_float) : bool :=
  match x with
  | S754_zero _ | S754_finite _ _ _ => true
  | _ => false
  end.

Definition same_number (x y : spec_float) : Prop :=
  match x, y with
  | S754_zero _, S754_zero _ => True
  | _, _ => x = y
  end.

Definition same (a b : tensor) : Prop :=
  dtype_of a = dtype_of b ∧ dims a = dims b ∧
  Forall2 same_number (elts a) (elts b).

#[export] Instance host : Host := {|
  Tensor := tensor;
  shape := dims;
  tensor_add := add;
  tensor_mul := mul;
  tensor_rmul := rmul;
  scalar_zero := scalar floatx zero;
  scalar_one := scalar floatx (one floatx);
  all_finite := λ a, forallb is_finite (elts a);
  same_numbers := same;
  Rng := Z;
  random_binomial := binomial;
  BaseLayer := gmap string pyval;
  Layer_init := Reference.base_init;
  Layer_get_config := λ b, b;
|}.

Definition layer (p : pyval) : StochasticDepth :=
  {| super := (∅ : gmap string pyval); survival_probability := p |}.

Definition world (g : Z) (training : bool) : World :=
  {| rng := g; learning_phase := training |}.

(** Tensors of shape (1,) and the numbers to fill them with. *)
Definition vec (d : dtype) (x : spec_float) : tensor := tensor_of d [1%nat] [x].
Definition two (d : dtype) : spec_float :=
  SFadd (prec d) (emax d) (one d) (one d).

End IEEE.

(** ** The reference host keeps the laws *)

Section ReferenceLaws.
Import Reference.

Lemma tensor_eq (a b : tensor) :
  dims a = dims b → elts a = elts b → a = b.
Proof.
  destruct a as [da ea pa], b as [db eb pb]; simpl.
  intros -> ->. f_equal. apply proof_irrel.
Qed.

Lemma sized_length (a : tensor) : length (elts a) = product (dims a).
Proof. destruct a as [d e p]; simpl. exact (bool_decide_unpack _ p). Qed.

Lemma mk_ok (d : list nat) (l : list Qc) :
  length l = product d →
  ∃ t, mk d l = Ok t ∧ dims t = d ∧ elts t = l.
Proof.
  intros E. unfold mk. destruct (decide (length l = product d)) as [E'|N].
  - eexists. split; [reflexivity|]. by simpl.
  - contradiction.
Qed.


Lemma scalar_elts (a : tensor) : dims a = [] → ∃ q, elts a = [q].
Proof.
  intros E. pose proof (sized_length a) as L. rewrite E in L. simpl in L.
  destruct (elts a) as [|q [|q' l]]; simpl in L; try discriminate.
  by exists q.
Qed.

Lemma scale_ok (q : Qc) (a : tensor) :
  ∃ t, scale q a = Ok t ∧ dims t = dims a ∧ elts t = Qcmult q <$> elts a.
Proof. apply mk_ok. rewrite length_fmap. apply sized_length. Qed.

Lemma pointwise_scalar (f : Qc → Qc → Qc) (q : Qc) (a : tensor) :
  ∃ t, pointwise f (scalar q) a = Ok t ∧ dims t = dims a
       ∧ elts t = f q <$> elts a.
Proof.
  unfold pointwise. destruct (decide (dims (scalar q) = dims a)) as [E|N].
  - simpl in E. destruct (scalar_elts a (eq_sym E)) as [x Hx].
    rewrite Hx. simpl. rewrite <- E.
    by apply (mk_ok [] [f q x]).
  - simpl. apply mk_ok. rewrite length_fmap. apply sized_length.
Qed.

Lemma number_one : number (PFloat 1) = Some 1%Qc.
Proof. simpl. f_equal. by apply Qc_is_canon. Qed.




Lemma pointwise_equal (f : Qc → Qc → Qc) (a b : tensor) :
  dims a = dims b →
  ∃ t, pointwise f a b = Ok t ∧ dims t = dims a
       ∧ elts t = zip_with f (elts a) (elts b).
Proof.
  intros E. unfold pointwise. rewrite decide_True by done.
  apply mk_ok. rewrite length_zip_with, !sized_length, E. lia.
Qed.

Lemma reference_shaped : Shaped host.
Proof.
  split; try reflexivity.
  - intros a b E. simpl in *.
    destruct (pointwise_equal Qcplus a b E) as (t & Ht & Hd & _).
    by exists t.
  - intros b a c E. simpl in *. destruct (scalar_elts b E) as [q Hq].
    assert (b = scalar q) as -> by (by apply tensor_eq).
    destruct (pointwise_scalar Qcmult q a) as (t & -> & Hd & _).
    by intros [= <-].
  - intros f a. simpl. unfold rmul. simpl.
    destruct (scale_ok (Q2Qc (SF2Q (Prim2SF f))) a) as (t & Ht & Hd & _).
    by exists t.
Qed.




Lemma uniform_range (g : Z) : (0 <= uniform g)%Qc ∧ (uniform g < 1)%Qc.
Proof.
  pose proof (Z.mod_pos_bound g modulus eq_refl) as [Lo Hi].
  unfold uniform, Qcle, Qclt. simpl this. rewrite !Qred_correct.
  unfold Qle, Qlt, modulus in *. simpl. lia.
Qed.

Lemma bernoulli_one (g : Z) : bernoulli 1%Qc g = 1%Qc.
Proof.
  destruct (uniform_range g) as [_ Hi].
  pose proof (proj1 (Qclt_alt _ _) Hi) as C.
  unfold bernoulli. by rewrite C.
Qed.

Lemma binomial_scalar (f : float) (g : Z) (q : Qc) :
  number (PFloat f) = Some q →
  binomial [] (PFloat f) g = (Ok (scalar (bernoulli q (next g))), next g).
Proof.
  intros E. unfold binomial. rewrite E. simpl. f_equal.
  destruct (mk_ok [] [bernoulli q (next g)] eq_refl) as (t & -> & Hd & He).
  f_equal. by apply tensor_eq.
Qed.

Lemma reference_sampler : Sampler host.
Proof.
  split.
  - intros f g. eexists.
    change (random_binomial [] (PFloat f) g) with (binomial [] (PFloat f) g).
    rewrite (binomial_scalar f g _ eq_refl).
    split; [reflexivity|]. unfold bernoulli.
    destruct (_ ?= _)%Qc; auto.
  - intros g.
    change (random_binomial [] (PFloat 1) g) with (binomial [] (PFloat 1) g).
    by rewrite (binomial_scalar _ g _ number_one), bernoulli_one.
Qed.

End ReferenceLaws.

(** ** The floating-point host: 0 absorbs finite entries *)

Section FloatLaws.
Import IEEE.

Lemma float_sized_length (a : tensor) :
  length (elts a) = Reference.product (dims a).
Proof. destruct a as [d s e p]; simpl. exact (bool_decide_unpack _ p). Qed.

Lemma float_tensor_eq (a b : tensor) :
  dtype_of a = dtype_of b → dims a = dims b → elts a = elts b → a = b.
Proof.
  destruct a as [da sa ea pa], b as [db sb eb pb]; simpl.
  intros -> -> ->. f_equal. apply proof_irrel.
Qed.

Lemma float_mk_inv (d : dtype) (s : list nat) (l : list spec_float) t :
  mk d s l = Ok t → dtype_of t = d ∧ dims t = s ∧ elts t = l.
Proof.
  unfold mk. destruct (decide _) as [E|N]; [|done]. by intros [= <-].
Qed.

(** One entry: a finite number times 0 is a zero, and adding a zero to a
    number gives the number back, up to the sign of a zero. *)
Lemma add_zero_times (p e p' e' : Z) (y x : spec_float) :
  is_finite x = true →
  same_number y (SFadd p e y (SFmul p' e' zero x)).
Proof. by destruct y as [[]|[]| |[] m k], x as [[]|[]| |[] n j]. Qed.

Lemma add_zero_times_all (p e p' e' : Z) (l k : list spec_float) :
  length l = length k →
  forallb is_finite k = true →
  Forall2 same_number l (zip_with (SFadd p e) l (SFmul p' e' zero <$> k)).
Proof.
  revert k. induction l as [|y l IH]; intros [|x k]; csimpl; try done.
  intros [= E] [Hx Hk]%andb_prop. constructor.
  - exact (add_zero_times p e p' e' y x Hx).
  - by apply IH.
Qed.

(** The product of a scalar with a tensor multiplies every entry. *)
Lemma float_scalar_product (c : spec_float) (a z : tensor) :
  mul (scalar floatx c) a = Ok z →
  dims z = dims a ∧
  elts z = SFmul (prec floatx) (emax floatx) c <$> elts a.
Proof.
  unfold mul, pointwise. simpl.
  destruct (decide (floatx = dtype_of a)) as [D|D]; [|done].
  destruct (decide ([] = dims a)) as [E|N].
  - pose proof (float_sized_length a) as L. rewrite <- E in L.
    destruct (elts a) as [|x [|x' l]] eqn:Ha; try done.
    intros (_ & Hd & He)%float_mk_inv. by rewrite Hd, He.
  - by intros (_ & Hd & He)%float_mk_inv.
Qed.

Lemma float_sum (s z out : tensor) :
  dims s = dims z → add s z = Ok out →
  dtype_of out = dtype_of s ∧ dims out = dims s ∧
  elts out = zip_with (SFadd (prec (dtype_of s)) (emax (dtype_of s)))
                      (elts s) (elts z).
Proof.
  intros E. unfold add, pointwise.
  destruct (decide (dtype_of s = dtype_of z)) as [D|D]; [|done].
  rewrite decide_True by done. apply float_mk_inv.
Qed.

Lemma float_absorbing : Absorbing host.
Proof.
  split; simpl.
  - intros s a z out Hfin Hs Hz Ha.
    apply float_scalar_product in Hz as [Hzd Hze].
    apply float_sum in Ha as (Hod & Hos & Hoe); [|congruence].
    split; [done|]. split; [done|]. rewrite Hoe, Hze.
    apply add_zero_times_all; [|done].
    by rewrite !float_sized_length, Hs.
  - intros s a z out Hfin Hs. unfold rmul.
    replace (cast (dtype_of a) (PFloat 0)) with (Some zero)
      by (by destruct (dtype_of a)).
    intros (_ & Hzd & Hze)%float_mk_inv Ha.
    apply float_sum in Ha as (Hod & Hos & Hoe); [|congruence].
    split; [done|]. split; [done|]. rewrite Hoe, Hze.
    apply add_zero_times_all; [|done].
    by rewrite !float_sized_length, Hs.
Qed.

End FloatLaws.

(** ** What a call does *)

Section Call.
Context `{H : Host}.
Implicit Types (self : StochasticDepth) (x : arg Tensor).
Implicit Types (shortcut residual : Tensor) (training : option bool).
Implicit Types (w : World).

(** A call on a two-element list: the draw comes first, in either mode, and
    the mode then picks the arithmetic. *)
Lemma call_pair self shortcut residual training w :
  call self (PyList [shortcut; residual]) training w =
  match (random_binomial [] (survival_probability self) (rng w)).1 with
  | Ok b_l =>
      (if training_mode training w
       then t ← tensor_mul b_l residual; tensor_add shortcut t
       else t ← tensor_rmul (survival_probability self) residual;
            tensor_add shortcut t,
       drawn self w)
  | Raise e => (Raise e, drawn self w)
  end.
Proof.
  unfold call, drawn, draw, in_train_phase, training_mode, lift.
  unfold mbind, M_bind; simpl.
  by destruct (random_binomial _ _ _) as [[b|e] g].
Qed.

Lemma call_not_list self x training w :
  isinstance_list x = false →
  call self x training w = (Raise (ValueError "Input must be a list"), w).
Proof. by destruct x. Qed.

Lemma call_wrong_length self (l : list Tensor) training w :
  length l ≠ 2%nat →
  call self (PyList l) training w =
  (Raise (ValueError "Input must have exactly two entries"), w).
Proof. by destruct l as [|a [|b [|c l]]]. Qed.

End Call.

(** ** The statements of the specification *)

Section Claims.
Context `{H : Host}.
Implicit Types (self : StochasticDepth) (x : arg Tensor).
Implicit Types (shortcut residual : Tensor) (training : option bool).
Implicit Types (w : World) (f : float).

(** C1: in inference mode the layer returns exactly
    [shortcut + survival_probability * residual]; the value is the same in
    every world, so it does not depend on the draw. *)
Theorem call_inference {S : Sampler H} {A : Shaped H}
    self f shortcut residual :
  survival_probability self = PFloat f →
  shape shortcut = shape residual →
  ∃ scaled out,
    tensor_rmul (PFloat f) residual = Ok scaled ∧
    tensor_add shortcut scaled = Ok out ∧
    ∀ training w, training_mode training w = false →
      (call self (PyList [shortcut; residual]) training w).1 = Ok out.
Proof.
  intros Hp Hs.
  destruct (rmul_shaped f residual) as (scaled & Hm & Hms).
  destruct (add_shaped shortcut scaled) as (out & Ha & _); [congruence|].
  exists scaled, out. split; [done|]. split; [done|].
  intros training w Hmode. rewrite call_pair, Hp, Hmode.
  destruct (draw_bernoulli f (rng w)) as (b & -> & _). simpl.
  by rewrite Hm.
Qed.


(** C4, as the code has it: a call on a two-element list consumes exactly
    one draw, in training mode and in inference mode alike, and changes
    nothing else; a call on any other input changes nothing. *)
Theorem call_effect self x training w :
  (call self x training w).2 =
  match x with
  | PyList [_; _] => drawn self w
  | _ => w
  end.
Proof.
  destruct x as [t | l | l]; try done.
  destruct l as [|shortcut [|residual [|c l]]]; try done.
  rewrite call_pair. by destruct (random_binomial _ _ _).1.
Qed.

(** C5: a layer built with [p] exports a configuration that holds [p]
    under the key "survival_probability" next to the base layer's entries,
    and the layer rebuilt from it has the same [p]. *)
Theorem config_roundtrip f (kwargs : gmap string pyval) self :
  __init__ (Some (PFloat f)) kwargs = Ok self →
  (∃ b, Layer_init (delete "survival_probability"
                      (Layer_get_config (super self))) = Ok b) →
  get_config self !! "survival_probability" = Some (PFloat f) ∧
  (∀ k, k ≠ "survival_probability" →
        get_config self !! k = Layer_get_config (super self) !! k) ∧
  ∃ self', from_config (get_config self) = Ok self' ∧
           survival_probability self' = PFloat f.
Proof.
  intros Hinit [b Hb].
  assert (survival_probability self = PFloat f) as Hp.
  { unfold __init__ in Hinit. simpl in Hinit.
    destruct (Layer_init kwargs); simpl in Hinit; by simplify_eq. }
  assert (get_config self !! "survival_probability" = Some (PFloat f)) as Hk.
  { unfold get_config. rewrite Hp.
    apply lookup_union_Some_l, lookup_singleton_eq. }
  split; [done|]. split.
  { intros k Hne. unfold get_config.
    rewrite lookup_union_r; [done|]. by apply lookup_singleton_ne. }
  unfold from_config. rewrite Hk.
  assert (delete "survival_probability" (get_config self) =
          delete "survival_probability" (Layer_get_config (super self))) as ->.
  { unfold get_config. rewrite delete_union, delete_singleton_eq.
    by rewrite (left_id_L ∅ (∪)). }
  unfold __init__. simpl. rewrite Hb. simpl. by eexists.
Qed.



(** The tensor a call returns has the shape of [shortcut], in both
    modes. *)
Lemma call_output_shape {S : Sampler H} {A : Shaped H}
    self f shortcut residual training w out :
  survival_probability self = PFloat f →
  shape shortcut = shape residual →
  (call self (PyList [shortcut; residual]) training w).1 = Ok out →
  shape out = shape shortcut.
Proof.
  intros Hp Hs. rewrite call_pair, Hp.
  destruct (draw_bernoulli f (rng w)) as (b & -> & Hcase). simpl.
  assert (∀ t, shape t = shape residual →
               tensor_add shortcut t = Ok out → shape out = shape shortcut)
    as Hadd.
  { intros t Ht. destruct (add_shaped shortcut t) as (c & -> & Hc);
      [congruence|]. by intros [= <-]. }
  destruct (training_mode training w).
  - destruct (tensor_mul b residual) as [t|e] eqn:Hm; [|done]. simpl.
    apply Hadd. apply (mul_shaped b residual t); [|done].
    destruct Hcase as [-> | ->];
      [apply shape_scalar_zero | apply shape_scalar_one].
  - destruct (rmul_shaped f residual) as (t & -> & Ht). simpl.
    by apply Hadd.
Qed.

(** C8, where the code departs from it: [compute_output_shape] tests [x],
    a name its body never binds, so it raises [NameError] on every input
    instead of returning the first input shape. *)
Theorem compute_output_shape_raises self (input_shape : arg (list nat)) :
  compute_output_shape self input_shape = Raise (NameError "x").
Proof.
  unfold compute_output_shape.
  assert (load_name "x"
            (<["self" := OSelf self]>
               (<["input_shape" := OShapes input_shape]> module_globals))
          = Raise (NameError "x")) as ->; [|done].
  unfold load_name, module_globals.
  by rewrite !lookup_insert_ne, lookup_empty.
Qed.

(** C9: the constructor takes any float, in or out of [0, 1], and stores
    it as it is; without the argument it stores 0.5. *)
Theorem init_stores f (kwargs : gmap string pyval) (b : BaseLayer) :
  Layer_init kwargs = Ok b →
  __init__ (Some (PFloat f)) kwargs =
    Ok {| super := b; survival_probability := PFloat f |} ∧
  __init__ None kwargs =
    Ok {| super := b; survival_probability := PFloat 0.5 |}.
Proof. intros Hb. unfold __init__. simpl. by rewrite Hb. Qed.

(** C10, as the code has it: the type check stops a value that is neither
    a float nor an int with a [TypeError], before anything is built; a
    float, an int or a bool passes and is stored as it is. *)
Theorem init_typechecked (v : pyval) (kwargs : gmap string pyval) :
  __init__ (Some v) kwargs =
  match v with
  | PFloat _ | PInt _ | PBool _ =>
      super ← Layer_init kwargs;
      Ok {| super := super; survival_probability := v |}
  | PNone | PStr _ => Raise (TypeError "survival_probability")
  end.
Proof. by destruct v. Qed.

End Claims.

(** ** The statements at work on the reference host *)

Section Runs.
Import Reference.

Lemma call_inference_witness :
  survival_probability (layer (PFloat 0.5)) = PFloat 0.5 ∧
  shape ones331 = shape twos331 ∧
  ∃ scaled out,
    tensor_rmul (PFloat 0.5) twos331 = Ok scaled ∧
    tensor_add ones331 scaled = Ok out ∧
    ∀ training w, training_mode training w = false →
      (call (layer (PFloat 0.5)) (PyList [ones331; twos331]) training w).1
      = Ok out.
Proof.
  split; [reflexivity|]. split; [reflexivity|].
  apply (call_inference (S := reference_sampler) (A := reference_shaped)
           (layer (PFloat 0.5)) 0.5 ones331 twos331); reflexivity.
Defined.


Lemma config_roundtrip_witness :
  __init__ (Some (PFloat 0.7)) ∅ = Ok (layer (PFloat 0.7)) ∧
  get_config (layer (PFloat 0.7)) !! "survival_probability"
    = Some (PFloat 0.7) ∧
  ∃ self', from_config (get_config (layer (PFloat 0.7))) = Ok self' ∧
           survival_probability self' = PFloat 0.7.
Proof.
  split; [reflexivity|].
  destruct (config_roundtrip 0.7 ∅ (layer (PFloat 0.7))) as (Hk & _ & Hr).
  - reflexivity.
  - exists ∅. reflexivity.
  - split; [exact Hk | exact Hr].
Defined.



Lemma init_stores_witness :
  Layer_init (∅ : gmap string pyval) = Ok (∅ : gmap string pyval) ∧
  __init__ (Some (PFloat 1.5)) ∅ = Ok (layer (PFloat 1.5)) ∧
  __init__ None ∅ = Ok (layer (PFloat 0.5)).
Proof.
  split; [reflexivity|].
  apply (init_stores (H := host) 1.5 ∅ ∅). reflexivity.
Defined.

(** C4, where the code departs from it: an inference-mode call leaves the
    generator in another state than it found it. *)
Lemma inference_consumes_draw :
  training_mode (Some false) (world false) = false ∧
  rng (call (layer (PFloat 0.5)) (PyList [ones331; twos331]) (Some false)
            (world false)).2
  ≠ rng (world false).
Proof. split; [reflexivity|]. vm_compute. discriminate. Qed.

(** C10, where the code departs from it: the integer 1 passes the type
    check and a layer is built. *)
Lemma init_accepts_int :
  __init__ (Some (PInt 1)) ∅ = Ok (layer (PInt 1)).
Proof. reflexivity. Qed.

(** The layer on ones and twos of shape (3, 3, 1), with p = 0.5, in
    inference mode: every entry is 1 + 0.5 * 2 = 2. *)
Example inference_331 :
  (call (layer (PFloat 0.5)) (PyList [ones331; twos331]) (Some false)
        (world true)).1 = Ok twos331.
Proof. vm_compute. reflexivity. Qed.

(** [compute_output_shape] on two shapes (3, 3, 1). *)
Example compute_output_shape_331 :
  compute_output_shape (layer (PFloat 0.5))
    (PyList [[3; 3; 1]; [3; 3; 1]]%nat) = Raise (NameError "x").
Proof. reflexivity. Qed.

End Runs.

(** ** The statements at work on the floating-point host *)

Section FloatRuns.
Import IEEE.

Local Ltac run :=
  vm_compute; first [ reflexivity
                    | f_equal; apply float_tensor_eq; reflexivity ].




(** On finite float32 entries the layer with p = 0 returns [shortcut] in
    inference mode. *)
Example inference_zero_float32 :
  (call (layer (PFloat 0))
        (PyList [vec float32 (one float32); vec float32 (two float32)])
        (Some false) (world 42 false)).1 = Ok (vec float32 (one float32)).
Proof. run. Qed.

End FloatRuns.

(** ** Further properties of the layer *)

Section Further.
Context `{H : Host}.
Implicit Types (self : StochasticDepth) (x : arg Tensor).
Implicit Types (shortcut residual : Tensor) (training : option bool).
Implicit Types (w : World) (f : float).

(** X1: whenever a call on a list of two equal-shaped tensors returns a
    tensor, the tensor has the shape of [shortcut], in either mode; in
    inference mode the call does return one. *)
Theorem call_returns_shaped {S : Sampler H} {A : Shaped H}
    self f shortcut residual training w :
  survival_probability self = PFloat f →
  shape shortcut = shape residual →
  (∀ out, (call self (PyList [shortcut; residual]) training w).1 = Ok out →
          shape out = shape shortcut) ∧
  (training_mode training w = false →
   ∃ out, (call self (PyList [shortcut; residual]) training w).1 = Ok out).
Proof.
  intros Hp Hs. split.
  - intros out. by apply (call_output_shape self f).
  - intros Hmode. rewrite call_pair, Hp, Hmode.
    destruct (draw_bernoulli f (rng w)) as (b & -> & _). simpl.
    destruct (rmul_shaped f residual) as (t & -> & Ht). simpl.
    destruct (add_shaped shortcut t) as (out & -> & _); [congruence|].
    by exists out.
Qed.

(** X3: a training flag given at the call decides the mode whatever the
    learning phase is; a call without the flag behaves as the call with the
    learning phase as its flag. *)
Theorem call_flag_overrides self x (b : bool) w :
  let w' := {| rng := rng w; learning_phase := b |} in
  (call self x (Some b) w).1 = (call self x None w').1 ∧
  rng (call self x (Some b) w).2 = rng (call self x None w').2 ∧
  learning_phase (call self x (Some b) w).2 = learning_phase w.
Proof.
  destruct x as [t | l | l]; try done.
  destruct l as [|shortcut [|residual [|c l]]]; try done.
  simpl. rewrite !call_pair. unfold drawn, training_mode. simpl.
  by destruct (random_binomial _ _ _).1.
Qed.

Lemma get_config_own self :
  get_config self !! "survival_probability" = Some (survival_probability self).
Proof. apply lookup_union_Some_l, lookup_singleton_eq. Qed.

(** X4: in the exported configuration the layer's own entry wins: the key
    "survival_probability" maps to the stored value even when the base
    configuration has an entry of that name, and every other key maps as in
    the base configuration. *)
Theorem get_config_lookup self (k : string) :
  get_config self !! k =
  if decide (k = "survival_probability")
  then Some (survival_probability self)
  else Layer_get_config (super self) !! k.
Proof.
  destruct (decide (k = "survival_probability")) as [->|N].
  - apply get_config_own.
  - apply lookup_union_r. by apply lookup_singleton_ne.
Qed.

(** X5: exporting, rebuilding and exporting again gives the first
    configuration back, for a layer whose stored value passes the type
    check and whose base layer is rebuilt from its own configuration. *)
Theorem config_fixed_point self (b : BaseLayer) :
  typechecked_float (survival_probability self) = true →
  Layer_init (delete "survival_probability"
                (Layer_get_config (super self))) = Ok b →
  Layer_get_config b =
    delete "survival_probability" (Layer_get_config (super self)) →
  ∃ self', from_config (get_config self) = Ok self' ∧
           survival_probability self' = survival_probability self ∧
           get_config self' = get_config self.
Proof.
  intros Ht Hb Hc.
  exists {| super := b; survival_probability := survival_probability self |}.
  split; [|split; [done|]].
  - unfold from_config. rewrite get_config_own.
    assert (delete "survival_probability" (get_config self) =
            delete "survival_probability" (Layer_get_config (super self)))
      as ->.
    { unfold get_config. rewrite delete_union, delete_singleton_eq.
      by rewrite (left_id_L ∅ (∪)). }
    unfold __init__. simpl. rewrite Ht. simpl. by rewrite Hb.
  - unfold get_config. simpl. rewrite Hc.
    by rewrite <- !insert_union_singleton_l, insert_delete_eq.
Qed.

(** X6: a configuration without the key "survival_probability" rebuilds a
    layer with the default 0.5, the whole mapping going to the base
    layer. *)
Theorem from_config_default (config : gmap string pyval) (b : BaseLayer) :
  config !! "survival_probability" = None →
  Layer_init config = Ok b →
  from_config config = Ok {| super := b; survival_probability := PFloat 0.5 |}.
Proof.
  intros Hk Hb. unfold from_config. rewrite Hk, (delete_id _ _ Hk).
  unfold __init__. simpl. by rewrite Hb.
Qed.

(** X7: two calls in a row on two-element lists consume two draws, the
    second taken from the state the first left; nothing of a draw is kept
    for the next call. *)
Theorem call_twice self (s1 r1 s2 r2 : Tensor) (t1 t2 : option bool) w :
  (call self (PyList [s2; r2]) t2
        (call self (PyList [s1; r1]) t1 w).2).2 =
  drawn self (drawn self w).
Proof.
  assert (∀ s r t w0, (call self (PyList [s; r]) t w0).2 = drawn self w0)
    as Hstep.
  { intros s r t w0. rewrite call_pair.
    by destruct (random_binomial _ _ _).1. }
  by rewrite !Hstep.
Qed.

(** X8: a layer the constructor returns holds a value that passed the
    type check (a float, an int or a bool): the given one, or 0.5 when none
    was given; its base layer was built from the remaining keyword
    arguments. *)
Theorem init_invariant (v : option pyval) (kwargs : gmap string pyval) self :
  __init__ v kwargs = Ok self →
  typechecked_float (survival_probability self) = true ∧
  survival_probability self = default (PFloat 0.5) v ∧
  Layer_init kwargs = Ok (super self).
Proof.
  unfold __init__. intros Hinit.
  destruct (typechecked_float (default (PFloat 0.5) v)) eqn:Ht;
    simpl in Hinit; [|done].
  destruct (Layer_init kwargs) as [b|e]; simpl in Hinit; [|done].
  injection Hinit as <-. by simpl.
Qed.

(** X9: the constructor hands the base layer's refusal of the keyword
    arguments on, and a value that fails the type check is refused first,
    whatever the keyword arguments are. *)
Theorem init_failure (v : option pyval) (kwargs : gmap string pyval) e :
  Layer_init kwargs = Raise e →
  __init__ v kwargs =
  if typechecked_float (default (PFloat 0.5) v)
  then Raise e
  else Raise (TypeError "survival_probability").
Proof.
  intros Hb. unfold __init__.
  destruct (typechecked_float _); simpl; [by rewrite Hb | done].
Qed.

End Further.

Section FurtherRuns.
Import Reference.

Lemma call_returns_shaped_witness :
  survival_probability (layer (PFloat 0.7)) = PFloat 0.7 ∧
  shape ones331 = shape twos331 ∧
  (∀ out, (call (layer (PFloat 0.7)) (PyList [ones331; twos331]) None
                (world false)).1 = Ok out →
          shape out = [3; 3; 1]%nat) ∧
  (training_mode None (world false) = false →
   ∃ out, (call (layer (PFloat 0.7)) (PyList [ones331; twos331]) None
                (world false)).1 = Ok out).
Proof.
  split; [reflexivity|]. split; [reflexivity|].
  apply (call_returns_shaped (S := reference_sampler) (A := reference_shaped)
           (layer (PFloat 0.7)) 0.7 ones331 twos331 None (world false));
    reflexivity.
Defined.

Lemma config_fixed_point_witness :
  ∃ self', from_config (get_config (layer (PInt 1))) = Ok self' ∧
           survival_probability self' = PInt 1 ∧
           get_config self' = get_config (layer (PInt 1)).
Proof.
  apply (config_fixed_point (layer (PInt 1)) (∅ : gmap string pyval));
    reflexivity.
Defined.

Lemma from_config_default_witness :
  from_config ({[ "name" := PStr "gate" ]} : gmap string pyval) =
  Ok {| super := ({[ "name" := PStr "gate" ]} : gmap string pyval);
        survival_probability := PFloat 0.5 |}.
Proof.
  apply (from_config_default (H := host) {[ "name" := PStr "gate" ]}
           {[ "name" := PStr "gate" ]}); reflexivity.
Defined.

Lemma init_invariant_witness :
  typechecked_float (survival_probability (layer (PFloat 1.5))) = true ∧
  survival_probability (layer (PFloat 1.5)) = PFloat 1.5 ∧
  Layer_init (∅ : gmap string pyval) = Ok (super (layer (PFloat 1.5))).
Proof.
  apply (init_invariant (Some (PFloat 1.5)) ∅ (layer (PFloat 1.5))).
  reflexivity.
Defined.

Lemma init_failure_witness :
  __init__ (Some (PStr "high")) ({[ "depth" := PInt 3 ]} : gmap string pyval)
    = Raise (TypeError "survival_probability") ∧
  __init__ (Some (PFloat 0.5)) ({[ "depth" := PInt 3 ]} : gmap string pyval)
    = Raise (TypeError "Keyword argument not understood").
Proof.
  split.
  - apply (init_failure (H := host) (Some (PStr "high"))
             {[ "depth" := PInt 3 ]}
             (TypeError "Keyword argument not understood")).
    reflexivity.
  - apply (init_failure (H := host) (Some (PFloat 0.5))
             {[ "depth" := PInt 3 ]}
             (TypeError "Keyword argument not understood")).
    reflexivity.
Defined.

End FurtherRuns.
